(** * Verification of the AWS Batch step operator of ZenML

    Shallow embedding of
    [src/zenml/integrations/aws/step_operators/aws_batch_step_operator.py]:
    the environment and resource mappers, the job-name generator, the job
    definition compiler [generate_job_definition] (with the pydantic model
    constructors it calls) and the submission/polling code of [launch].

    Modelling choices.
    - Python [str] values are Rocq [string]s; Python [int] values are [Z].
    - A Python [float] (the CPU count, the memory amount) is a [Q]: every
      float is a rational, and the operations the code applies to it
      ([math.ceil], [int()], comparison with an int) are exact on floats.
    - A Python [dict] built by the code is an association list in insertion
      order (the iteration order of a Python dict).
    - Exceptions and the externally observable effects (log lines, calls to
      the ZenML client, calls to the boto3 batch client, sleeps) are threaded
      through a small writer/exception monad [M].
    - The answers of the remote services are inputs (oracles). *)

From Stdlib Require Import String Ascii List ZArith QArith Qround Lia Lqa Bool.
Import ListNotations.
Open Scope string_scope.
Open Scope Z_scope.

(* ------------------------------------------------------------------ *)
(** ** Exceptions, events and the monad *)

Inductive exn : Type :=
  (** [pydantic.ValidationError] raised while validating the named model *)
  | ValidationError (model : string)
  (** [RuntimeError(msg)] *)
  | RuntimeError (msg : string)
  (** [botocore.exceptions.ClientError] *)
  | ClientError (msg : string)
  (** [IndexError] / [KeyError] on a malformed response *)
  | IndexError
  | KeyError (key : string).

(** The informational / error lines written through [logger]. *)
Inductive log_line : Type :=
  | LogCpuConverted (given : Q) (converted : Z)
  | LogJobSucceeded (job_id : string)
  | LogDescribeFailed (job_id : string) (err : string).

(** Observable effects, in the order they happen. *)
Inductive event : Type :=
  | EvLog (l : log_line)
  (** [Client().get_run_step(step_run_id)] (ZenML store lookup) *)
  | EvGetRunStep (step_run_id : string)
  (** [boto3.client('batch').register_job_definition(...)] *)
  | EvRegisterJobDefinition (name : string)
  (** [batch.submit_job(...)] *)
  | EvSubmitJob (job_name queue definition : string)
  (** [batch.describe_jobs(jobs=[job_id])] *)
  | EvDescribeJobs (job_id : string)
  (** [time.sleep(secs)] *)
  | EvSleep (secs : Z).

Definition is_batch_call (e : event) : bool :=
  match e with
  | EvRegisterJobDefinition _ | EvSubmitJob _ _ _ | EvDescribeJobs _ => true
  | _ => false
  end.

Inductive result (A : Type) : Type :=
  | Ok (a : A)
  | Raise (e : exn).
Arguments Ok {A} a.
Arguments Raise {A} e.

(** A computation yields a result together with the trace of its effects. *)
Definition M (A : Type) : Type := (result A * list event)%type.

Definition ret {A} (a : A) : M A := (Ok a, []).
Definition raise {A} (e : exn) : M A := (Raise e, []).
Definition emit (ev : event) : M unit := (Ok tt, [ev]).

Definition bind {A B} (m : M A) (f : A -> M B) : M B :=
  match m with
  | (Ok a, t1) => let (r, t2) := f a in (r, app t1 t2)
  | (Raise e, t1) => (Raise e, t1)
  end.

Notation "x <- c1 ;; c2" := (bind c1 (fun x => c2))
  (at level 61, c1 at next level, right associativity).
Notation "c1 ;;; c2" := (bind c1 (fun _ => c2))
  (at level 61, right associativity).

(* ------------------------------------------------------------------ *)
(** ** Python helpers *)

(** [str(i)] for a Python [int]: decimal digits, with a leading [-]. *)
Fixpoint digits_aux (fuel : nat) (n : Z) (acc : string) : string :=
  match fuel with
  | O => acc
  | S f =>
      let acc' := String (ascii_of_nat (48 + Z.to_nat (n mod 10))) acc in
      if n <? 10 then acc' else digits_aux f (n / 10) acc'
  end.

Definition nat_digits (n : Z) : string :=
  digits_aux (S (Z.to_nat (Z.log2 n))) n "".

Definition py_str_int (z : Z) : string :=
  if z <? 0 then "-" ++ nat_digits (- z) else nat_digits z.

(** [range(n)] *)
Definition py_range (n : Z) : list Z :=
  map Z.of_nat (seq 0 (Z.to_nat n)).

(** [sep.join(xs)] *)
Fixpoint py_join (sep : string) (xs : list string) : string :=
  match xs with
  | [] => ""
  | [x] => x
  | x :: rest => x ++ sep ++ py_join sep rest
  end.

(** [math.ceil(x)] *)
Definition py_ceil (x : Q) : Z := Qceiling x.

(** [int(x)] for a float: truncation toward zero. *)
Definition py_int_of_float (x : Q) : Z := Z.quot (Qnum x) (Zpos (Qden x)).

(** [int_value != float_value]: Python compares the exact values. *)
Definition py_int_ne_float (i : Z) (x : Q) : bool :=
  negb (Qeq_bool (inject_Z i) x).

(** A Python dict with string keys and string values, in insertion order. *)
Definition str_dict := list (string * string).

Fixpoint dict_get (k : string) (d : str_dict) : option string :=
  match d with
  | [] => None
  | (k', v) :: rest => if String.eqb k k' then Some v else dict_get k rest
  end.

(** [d[k] = v]: overwrite in place when present, append otherwise. *)
Fixpoint dict_set (k v : string) (d : str_dict) : str_dict :=
  match d with
  | [] => [(k, v)]
  | (k', v') :: rest =>
      if String.eqb k k' then (k, v) :: rest else (k', v') :: dict_set k v rest
  end.

(* ------------------------------------------------------------------ *)
(** ** [map_environment] *)

(** [[{"name":k,"value":v} for k,v in environment.items()]] *)
Definition map_environment (environment : str_dict) : list str_dict :=
  map (fun '(k, v) => [("name", k); ("value", v)]) environment.

(** The inverse direction, [{d["name"]: d["value"] for d in pairs}], used to
    state the round trip; [None] stands for the [KeyError] of a missing key. *)
Fixpoint env_of_pairs_aux (acc : str_dict) (pairs : list str_dict)
  : option str_dict :=
  match pairs with
  | [] => Some acc
  | d :: rest =>
      match dict_get "name" d, dict_get "value" d with
      | Some k, Some v => env_of_pairs_aux (dict_set k v acc) rest
      | _, _ => None
      end
  end.

Definition env_of_pairs (pairs : list str_dict) : option str_dict :=
  env_of_pairs_aux [] pairs.

(* ------------------------------------------------------------------ *)
(** ** Resource settings *)

(** Modelled from the spec: [zenml.config.ResourceSettings] (not part of
    this source file).  Its fields are an optional CPU count (a real
    number), an optional GPU count (an integer) and an optional memory
    amount; [rs_memory_mib] is the value of [get_memory(unit="MiB")], which
    is [None] exactly when no memory is requested. *)
Record ResourceSettings : Type := {
  rs_cpu_count : option Q;
  rs_gpu_count : option Z;
  rs_memory_mib : option Q
}.

(** Modelled from the spec: [ResourceSettings.empty] holds when no
    resource field is set at all. *)
Definition rs_empty (rs : ResourceSettings) : bool :=
  match rs_cpu_count rs, rs_gpu_count rs, rs_memory_mib rs with
  | None, None, None => true
  | _, _, _ => false
  end.

(** One entry [{"value": ..., "type": ...}] of [resourceRequirements]. *)
Definition resource_entry (value type_ : string) : str_dict :=
  [("value", value); ("type", type_)].

(** [AWSBatchStepOperator.map_resource_settings] *)
Definition map_resource_settings (resource_settings : ResourceSettings)
  : M (list str_dict) :=
  if rs_empty resource_settings then ret []
  else
    cpu <- (match rs_cpu_count resource_settings with
            | Some c =>
                let cpu_count_int := py_ceil c in
                (if py_int_ne_float cpu_count_int c
                 then emit (EvLog (LogCpuConverted c cpu_count_int))
                 else ret tt) ;;;
                ret [resource_entry (py_str_int cpu_count_int) "VCPU"]
            | None => ret []
            end) ;;
    let gpu := match rs_gpu_count resource_settings with
               | Some g => [resource_entry (py_str_int g) "GPU"]
               | None => []
               end in
    let mem := match rs_memory_mib resource_settings with
               | Some m => [resource_entry (py_str_int (py_int_of_float m)) "MEMORY"]
               | None => []
               end in
    ret (cpu ++ gpu ++ mem)%list.

(* ------------------------------------------------------------------ *)
(** ** Job name *)

(** Modelled from the spec: [zenml.utils.string_utils.random_str] (not part
    of this source file) draws a fixed-length suffix from a printable
    alphabet; [rng i] is the [i]-th character drawn. *)
Definition random_str (length : nat) (rng : nat -> ascii) : string :=
  string_of_list_ascii (map rng (seq 0 length)).

(** [AWSBatchStepOperator.generate_unique_batch_job_name]; [step_name] is
    [Client().get_run_step(info.step_run_id).name].  [s[:55]] is
    [substring 0 55 s]. *)
Definition generate_unique_batch_job_name
    (pipeline_name step_name : string) (rng : nat -> ascii) : string :=
  let job_name := substring 0 55 (pipeline_name ++ "-" ++ step_name) in
  let suffix := random_str 4 rng in
  job_name ++ "-" ++ suffix.

(* ------------------------------------------------------------------ *)
(** ** The pydantic models of the job definition *)

(** [AWSBatchJobDefinitionContainerProperties] *)
Record ContainerProperties : Type := {
  image : string;
  command : list string;
  jobRoleArn : string;
  executionRoleArn : string;
  environment : list str_dict;
  instanceType : string;
  resourceRequirements : list str_dict;
  secrets : list str_dict
}.

(** The Python object handed to a field of type
    [AWSBatchJobDefinitionContainerProperties]: a model instance, or a
    tuple of them. *)
Inductive py_container_arg : Type :=
  | ArgModel (c : ContainerProperties)
  | ArgTuple (cs : list ContainerProperties).

(** Lax-mode pydantic validation of a field whose type is a model class:
    an instance of the class is accepted as it is; a tuple is neither an
    instance nor a mapping and fails the validation of the enclosing
    model [owner]. *)
Definition validate_container (owner : string) (a : py_container_arg)
  : M ContainerProperties :=
  match a with
  | ArgModel c => ret c
  | ArgTuple _ => raise (ValidationError owner)
  end.

(** [AWSBatchJobDefinitionNodePropertiesNodeRangeProperty] *)
Record NodeRangeProperty : Type := {
  targetNodes : string;
  container : ContainerProperties
}.

Definition NodeRangeProperty_new (targetNodes_ : string)
    (container_ : py_container_arg) : M NodeRangeProperty :=
  c <- validate_container
         "AWSBatchJobDefinitionNodePropertiesNodeRangeProperty" container_ ;;
  ret {| targetNodes := targetNodes_; container := c |}.

(** [AWSBatchJobDefinitionNodeProperties]: [numNodes: PositiveInt = 1],
    [mainNode: int = 0]. *)
Record NodeProperties : Type := {
  numNodes : Z;
  mainNode : Z;
  nodeRangeProperties : list NodeRangeProperty
}.

(** Constructor call [AWSBatchJobDefinitionNodeProperties(numNodes=...,
    nodeRangeProperties=...)]; [mainNode] takes its default. *)
Definition NodeProperties_new (numNodes_ : Z)
    (nodeRangeProperties_ : list NodeRangeProperty) : M NodeProperties :=
  if 0 <? numNodes_
  then ret {| numNodes := numNodes_; mainNode := 0;
              nodeRangeProperties := nodeRangeProperties_ |}
  else raise (ValidationError "AWSBatchJobDefinitionNodeProperties").

(** [AWSBatchJobDefinitionRetryStrategy] *)
Record RetryStrategy : Type := {
  attempts : Z;
  evaluateOnExit : list str_dict
}.

Definition default_retry_strategy : RetryStrategy := {|
  attempts := 2;
  evaluateOnExit :=
    [ [("onExitCode", "137"); ("action", "RETRY")];
      [("onReason", "*Host EC2*"); ("action", "RETRY")];
      [("onExitCode", "*"); ("action", "EXIT")] ]
|}.

(** [Literal['container','multinode']] *)
Inductive job_type : Type := TContainer | TMultinode.

(** [Literal['EC2','FARGATE']] *)
Inductive platform : Type := EC2 | FARGATE.

(** [AWSBatchJobDefinition] *)
Record AWSBatchJobDefinition : Type := {
  jobDefinitionName : string;
  type_ : job_type;
  parameters : str_dict;
  schedulingPriority : Z;
  containerProperties : option ContainerProperties;
  nodeProperties : option NodeProperties;
  retryStrategy : RetryStrategy;
  propagateTags : bool;
  timeout : list (string * Z);
  tags : str_dict;
  platformCapabilities : platform
}.

(** The optional keyword arguments [**kwargs] that may reach the
    [AWSBatchJobDefinition] constructor besides [jobDefinitionName] and
    [timeout]; [None] means "not passed". *)
Record jd_kwargs : Type := {
  kw_type : option string;
  kw_containerProperties : option py_container_arg;
  kw_nodeProperties : option NodeProperties;
  kw_retryStrategy : option RetryStrategy
}.

Definition validate_job_type (t : option string) : M job_type :=
  match t with
  | None => ret TContainer
  | Some s =>
      if String.eqb s "container" then ret TContainer
      else if String.eqb s "multinode" then ret TMultinode
      else raise (ValidationError "AWSBatchJobDefinition")
  end.

(** [AWSBatchJobDefinition(jobDefinitionName=..., timeout=..., **kwargs)]:
    passed fields are validated, the others take their defaults. *)
Definition AWSBatchJobDefinition_new (jobDefinitionName_ : string)
    (timeout_ : list (string * Z)) (kw : jd_kwargs) : M AWSBatchJobDefinition :=
  t <- validate_job_type (kw_type kw) ;;
  cp <- (match kw_containerProperties kw with
         | None => ret None
         | Some a => c <- validate_container "AWSBatchJobDefinition" a ;;
                     ret (Some c)
         end) ;;
  ret {| jobDefinitionName := jobDefinitionName_;
         type_ := t;
         parameters := [];
         schedulingPriority := 0;
         containerProperties := cp;
         nodeProperties := kw_nodeProperties kw;
         retryStrategy :=
           match kw_retryStrategy kw with
           | Some r => r
           | None => default_retry_strategy
           end;
         propagateTags := false;
         timeout := timeout_;
         tags := [];
         platformCapabilities := EC2 |}.

(* ------------------------------------------------------------------ *)
(** ** [generate_job_definition] *)

(** What the compiler reads from [info: StepRunInfo]; [step_name] is the
    name the ZenML store returns for [step_run_id]. *)
Record StepRunInfo : Type := {
  pipeline_name : string;
  step_run_id : string;
  step_name : string;
  image_name : string;  (* info.get_image(key=BATCH_DOCKER_IMAGE_KEY) *)
  resource_settings : ResourceSettings
}.

(** The static configuration of the operator ([self.config]). *)
Record AWSBatchStepOperatorConfig : Type := {
  execution_role : string;
  job_role : string;
  job_queue_name : string
}.

(** The per-step settings, as returned by [self.get_settings(info)].  The
    settings class is not part of this file's source; its fields follow the
    step-level settings of the specification ([instance_type: string],
    [node_count: positive int], [timeout_seconds: positive int]).  The
    positivity is enforced by [get_settings] below, which produces the
    values of this record that reach the compiler. *)
Record AWSBatchStepOperatorSettings : Type := {
  instance_type : string;
  node_count : Z;
  timeout_seconds : Z
}.

(** The step's settings for this operator as written in its configuration,
    before validation. *)
Record StepSettingsInput : Type := {
  in_instance_type : string;
  in_node_count : Z;
  in_timeout_seconds : Z
}.

(** [self.get_settings(info)]: the settings are validated against the
    settings class; a node count or timeout that is not a positive int
    makes pydantic raise [ValidationError].  No client is involved. *)
Definition get_settings (s : StepSettingsInput) : M AWSBatchStepOperatorSettings :=
  if (0 <? in_node_count s) && (0 <? in_timeout_seconds s)
  then ret {| instance_type := in_instance_type s;
              node_count := in_node_count s;
              timeout_seconds := in_timeout_seconds s |}
  else raise (ValidationError "AWSBatchStepOperatorSettings").

(** [Client().get_run_step(info.step_run_id).name] *)
Definition get_run_step_name (info : StepRunInfo) : M string :=
  emit (EvGetRunStep (step_run_id info)) ;;; ret (step_name info).

(** [AWSBatchStepOperator.generate_job_definition].  Note the trailing comma
    after the [AWSBatchJobDefinitionContainerProperties(...)] call in the
    source: [container_properties] is bound to a one-element tuple. *)
Definition generate_job_definition (config : AWSBatchStepOperatorConfig)
    (step_settings : AWSBatchStepOperatorSettings) (info : StepRunInfo)
    (entrypoint_command : list string) (environment_ : str_dict)
    (rng : nat -> ascii) : M AWSBatchJobDefinition :=
  step_name_ <- get_run_step_name info ;;
  let job_name := generate_unique_batch_job_name (pipeline_name info) step_name_ rng in
  let env := map_environment environment_ in
  resources <- map_resource_settings (resource_settings info) ;;
  let container_properties :=
    ArgTuple [ {| executionRoleArn := execution_role config;
                  jobRoleArn := job_role config;
                  image := image_name info;
                  command := entrypoint_command;
                  environment := env;
                  instanceType := instance_type step_settings;
                  resourceRequirements := resources;
                  secrets := [] |} ] in
  let node_count_ := node_count step_settings in
  let timeout_ := [("attemptDurationSeconds", timeout_seconds step_settings)] in
  if node_count_ =? 1 then
    AWSBatchJobDefinition_new job_name timeout_
      {| kw_type := Some "container";
         kw_containerProperties := Some container_properties;
         kw_nodeProperties := None;
         kw_retryStrategy := None |}
  else
    nrp <- NodeRangeProperty_new
             (py_join "," (map py_str_int (py_range node_count_)))
             container_properties ;;
    np <- NodeProperties_new node_count_ [nrp] ;;
    AWSBatchJobDefinition_new job_name timeout_
      {| kw_type := Some "multinode";
         kw_containerProperties := None;
         kw_nodeProperties := Some np;
         kw_retryStrategy := None |}.

(* ------------------------------------------------------------------ *)
(** ** [launch]: registration, submission and the poll loop *)

#[local] Set Warnings "-register-all".
(** A JSON value of a boto3 response, as far as the code inspects it. *)
Inductive pyval : Type :=
  | PyStr (s : string)
  | PyList (xs : list pyval).

(** Python [==]: a [str] never equals a [list]. *)
Fixpoint py_eq (a b : pyval) : bool :=
  match a, b with
  | PyStr s, PyStr t => String.eqb s t
  | PyList xs, PyList ys =>
      (fix go (xs ys : list pyval) : bool :=
         match xs, ys with
         | [], [] => true
         | x :: xs', y :: ys' => py_eq x y && go xs' ys'
         | _, _ => false
         end) xs ys
  | _, _ => false
  end.

(** One entry of [response['jobs']]. *)
Record JobDescription : Type := {
  jd_status : pyval;
  jd_statusReason : option string
}.

(** The outcome of one [batch.describe_jobs(jobs=[job_id])] call. *)
Inductive describe_response : Type :=
  | DescribeRaises (msg : string)            (* raises ClientError *)
  | DescribeReturns (jobs : list JobDescription).

(** How the [while True] loop ended: by [break], or it was still polling
    when the given sequence of service answers ran out. *)
Inductive loop_exit : Type := Broke | StillPolling.

(** The [while True: try: ... except ClientError: ...] loop of [launch];
    each iteration consumes the next answer of the service. *)
Fixpoint poll_loop (job_id : string) (answers : list describe_response)
  : M loop_exit :=
  match answers with
  | [] => ret StillPolling
  | answer :: rest =>
      emit (EvDescribeJobs job_id) ;;;
      match answer with
      | DescribeRaises msg =>
          emit (EvLog (LogDescribeFailed job_id msg)) ;;; raise (ClientError msg)
      | DescribeReturns jobs =>
          match jobs with
          | [] => raise IndexError
          | j :: _ =>
              let status := jd_status j in
              if py_eq status (PyList [PyStr "SUCCEEDED"]) then
                emit (EvLog (LogJobSucceeded job_id)) ;;; ret Broke
              else if py_eq status (PyList [PyStr "FAILED"]) then
                let status_reason :=
                  match jd_statusReason j with Some r => r | None => "Unknown" end in
                raise (RuntimeError ("Job " ++ job_id ++ " failed: " ++ status_reason))
              else
                emit (EvSleep 10) ;;; poll_loop job_id rest
          end
      end
  end.

(** The answers of the batch service to one launch. *)
Record BatchService : Type := {
  register_answer : result string;  (* response['jobDefinitionName'] *)
  submit_answer : result string;    (* response['jobId'] *)
  describe_answers : list describe_response
}.

Definition lift {A} (r : result A) : M A := (r, []).

(** [AWSBatchStepOperator.launch] *)
Definition launch (config : AWSBatchStepOperatorConfig)
    (step_settings : AWSBatchStepOperatorSettings) (info : StepRunInfo)
    (entrypoint_command : list string) (environment_ : str_dict)
    (rng : nat -> ascii) (batch : BatchService) : M loop_exit :=
  job_definition <- generate_job_definition config step_settings info
                      entrypoint_command environment_ rng ;;
  emit (EvRegisterJobDefinition (jobDefinitionName job_definition)) ;;;
  job_definition_name <- lift (register_answer batch) ;;
  emit (EvSubmitJob (jobDefinitionName job_definition) (job_queue_name config)
          job_definition_name) ;;;
  job_id <- lift (submit_answer batch) ;;
  poll_loop job_id (describe_answers batch).

(** [launch] with the [self.get_settings(info)] call of
    [generate_job_definition] (line 335) made explicit: it comes after the
    local reads of the image and resource settings and before the step-name
    lookup, which is the first external call. *)
Definition launch_from_config (config : AWSBatchStepOperatorConfig)
    (settings_in : StepSettingsInput) (info : StepRunInfo)
    (entrypoint_command : list string) (environment_ : str_dict)
    (rng : nat -> ascii) (batch : BatchService) : M loop_exit :=
  step_settings <- get_settings settings_in ;;
  launch config step_settings info entrypoint_command environment_ rng batch.

(* ================================================================== *)
(** * Properties *)

Ltac unfold_M := unfold bind, ret, raise, emit, lift in *; simpl in *.

(** ** Strings *)

Lemma str_length_append (s1 s2 : string) :
  String.length (s1 ++ s2) = (String.length s1 + String.length s2)%nat.
Proof. induction s1 as [|c s1 IH]; simpl; auto. Qed.

Lemma substring_0_length_le (n : nat) (s : string) :
  (String.length (substring 0 n s) <= n)%nat.
Proof.
  revert s; induction n as [|n IH]; intros [|c s]; simpl; try lia.
  specialize (IH s). lia.
Qed.

Lemma string_of_list_ascii_length (l : list ascii) :
  String.length (string_of_list_ascii l) = List.length l.
Proof. induction l as [|c l IH]; simpl; auto. Qed.

Lemma random_str_length (n : nat) (rng : nat -> ascii) :
  String.length (random_str n rng) = n.
Proof.
  unfold random_str. rewrite string_of_list_ascii_length, length_map.
  apply length_seq.
Qed.

(** ** C6: the job name *)

(** C6. The generated job name is [<pipeline>-<step>] cut to at most 55
    characters, then a hyphen and a 4-character random suffix; its length
    is at most 63 characters. *)
Theorem generate_unique_batch_job_name_shape
    (pipeline step : string) (rng : nat -> ascii) :
  let prefix := substring 0 55 (pipeline ++ "-" ++ step) in
  generate_unique_batch_job_name pipeline step rng
    = prefix ++ "-" ++ random_str 4 rng
  /\ (String.length prefix <= 55)%nat
  /\ String.length (random_str 4 rng) = 4%nat
  /\ (String.length (generate_unique_batch_job_name pipeline step rng) <= 63)%nat.
Proof.
  intros prefix.
  assert (Hp : (String.length prefix <= 55)%nat) by apply substring_0_length_le.
  split; [reflexivity|]. split; [exact Hp|]. split; [apply random_str_length|].
  unfold generate_unique_batch_job_name. fold prefix.
  rewrite !str_length_append, random_str_length.
  change (String.length "-") with 1%nat. lia.
Qed.

(** ** C7: the environment mapper *)

Lemma dict_set_fresh (k v : string) (d : str_dict) :
  ~ In k (map fst d) -> dict_set k v d = (d ++ [(k, v)])%list.
Proof.
  induction d as [|[k' v'] d IH]; simpl; intros Hk; auto.
  destruct (String.eqb_spec k k') as [->|Hne].
  - exfalso. apply Hk. now left.
  - rewrite IH; auto.
Qed.

Lemma env_of_pairs_aux_map_environment (env acc : str_dict) :
  NoDup (map fst (acc ++ env)) ->
  env_of_pairs_aux acc (map_environment env) = Some (acc ++ env)%list.
Proof.
  revert acc; induction env as [|[k v] env IH]; intros acc Hnd; simpl.
  - now rewrite app_nil_r.
  - rewrite dict_set_fresh.
    + rewrite IH.
      * now rewrite <- app_assoc.
      * now rewrite <- app_assoc.
    + rewrite map_app in Hnd. simpl in Hnd.
      apply NoDup_remove_2 in Hnd. rewrite in_app_iff in Hnd. tauto.
Qed.

(** C7. The environment mapper emits one [{"name": k, "value": v}] entry
    per entry of the dict, in the dict's iteration order; reading the list
    back into a dict gives the original dict; the empty dict gives the
    empty list.  (A Python dict has pairwise distinct keys.) *)
Theorem map_environment_roundtrip (environment_ : str_dict) :
  NoDup (map fst environment_) ->
  List.length (map_environment environment_) = List.length environment_
  /\ map (dict_get "name") (map_environment environment_)
       = map (fun kv => Some (fst kv)) environment_
  /\ map (dict_get "value") (map_environment environment_)
       = map (fun kv => Some (snd kv)) environment_
  /\ env_of_pairs (map_environment environment_) = Some environment_
  /\ map_environment [] = [].
Proof.
  intros Hnd. split; [apply length_map|].
  split; [|split; [|split; [|reflexivity]]].
  - unfold map_environment. rewrite map_map. apply map_ext. now intros [k v].
  - unfold map_environment. rewrite map_map. apply map_ext. now intros [k v].
  - apply (env_of_pairs_aux_map_environment environment_ []). exact Hnd.
Qed.

Lemma map_environment_roundtrip_witness :
  NoDup (map fst [("A", "1"); ("B", "2")])
  /\ env_of_pairs (map_environment [("A", "1"); ("B", "2")])
       = Some [("A", "1"); ("B", "2")].
Proof.
  assert (H : NoDup (map fst [("A", "1"); ("B", "2")])).
  { simpl. constructor; [simpl; intros [H|[]]; discriminate|].
    constructor; [simpl; tauto|constructor]. }
  split; [exact H|].
  apply (map_environment_roundtrip [("A", "1"); ("B", "2")] H).
Defined.

(** ** C5, C10: the resource mapper *)

(** The [type] tag emitted for a resource that is present. *)
Definition tag_if {A} (o : option A) (tag : string) : list (option string) :=
  match o with Some _ => [Some tag] | None => [] end.

Lemma map_resource_settings_cpu_only (c : Q) :
  ~ (exists z : Z, inject_Z z == c) ->
  map_resource_settings {| rs_cpu_count := Some c; rs_gpu_count := None;
                           rs_memory_mib := None |}
  = (Ok [resource_entry (py_str_int (Qceiling c)) "VCPU"],
     [EvLog (LogCpuConverted c (Qceiling c))]).
Proof.
  intros Hnon.
  assert (Hne : py_int_ne_float (py_ceil c) c = true).
  { unfold py_int_ne_float, py_ceil.
    destruct (Qeq_bool (inject_Z (Qceiling c)) c) eqn:E; [|reflexivity].
    exfalso. apply Hnon. exists (Qceiling c). now apply Qeq_bool_iff. }
  unfold map_resource_settings, rs_empty. simpl.
  rewrite Hne. unfold_M. reflexivity.
Qed.

(** C5. With only the CPU count set, to a non-integer value [c], the
    resource mapper raises nothing, returns exactly one entry, the [VCPU]
    entry whose value is [str(ceil(c))], and logs exactly one line, the
    conversion note. *)
Theorem map_resource_settings_cpu_ceil (c : Q) :
  ~ (exists z : Z, inject_Z z == c) ->
  let out := map_resource_settings {| rs_cpu_count := Some c;
                                      rs_gpu_count := None;
                                      rs_memory_mib := None |} in
  fst out = Ok [ [("value", py_str_int (py_ceil c)); ("type", "VCPU")] ]
  /\ snd out = [EvLog (LogCpuConverted c (py_ceil c))].
Proof.
  intros Hnon out. unfold out. rewrite map_resource_settings_cpu_only by exact Hnon.
  split; reflexivity.
Qed.

Lemma map_resource_settings_cpu_ceil_witness :
  ~ (exists z : Z, inject_Z z == 23 # 10)
  /\ fst (map_resource_settings {| rs_cpu_count := Some (23 # 10);
                                   rs_gpu_count := None;
                                   rs_memory_mib := None |})
     = Ok [ [("value", "3"); ("type", "VCPU")] ].
Proof.
  assert (H : ~ (exists z : Z, inject_Z z == 23 # 10)).
  { intros [z Hz]. unfold Qeq in Hz. simpl in Hz. lia. }
  split; [exact H|].
  exact (proj1 (map_resource_settings_cpu_ceil (23 # 10) H)).
Defined.

(** C10. Whatever the resource settings, the resource mapper raises
    nothing; its entries carry the type [VCPU] for the CPU count, [GPU]
    for the GPU count and [MEMORY] for the memory, in this order, one for
    each field that is set and none for a field that is unset; so no type
    occurs twice. *)
Theorem map_resource_settings_types (rs : ResourceSettings) :
  exists l, fst (map_resource_settings rs) = Ok l
  /\ map (dict_get "type") l
       = (tag_if (rs_cpu_count rs) "VCPU" ++ tag_if (rs_gpu_count rs) "GPU"
          ++ tag_if (rs_memory_mib rs) "MEMORY")%list
  /\ NoDup (map (dict_get "type") l).
Proof.
  destruct rs as [cpu gpu mem].
  unfold map_resource_settings, rs_empty; simpl.
  destruct cpu as [c|], gpu as [g|], mem as [m|]; simpl;
    try (destruct (py_int_ne_float (py_ceil c) c));
    unfold_M; eexists; (split; [reflexivity|]); simpl;
    (split; [reflexivity|]);
    repeat constructor; simpl; intuition discriminate.
Qed.

(** ** The compiler *)

Lemma map_resource_settings_ok (rs : ResourceSettings) :
  exists l t, map_resource_settings rs = (Ok l, t).
Proof.
  destruct rs as [cpu gpu mem].
  unfold map_resource_settings, rs_empty; simpl.
  destruct cpu as [c|], gpu as [g|], mem as [m|]; simpl;
    try (destruct (py_int_ne_float (py_ceil c) c));
    unfold_M; eauto.
Qed.

(** The compiler up to the point where the node count is inspected:
    step-name lookup, then the resource mapper. *)
Lemma generate_job_definition_unfold cfg st info cmd env rng :
  exists resources t,
    generate_job_definition cfg st info cmd env rng =
    let cp := ArgTuple [ {| executionRoleArn := execution_role cfg;
                            jobRoleArn := job_role cfg;
                            image := image_name info;
                            command := cmd;
                            environment := map_environment env;
                            instanceType := instance_type st;
                            resourceRequirements := resources;
                            secrets := [] |} ] in
    let job_name :=
      generate_unique_batch_job_name (pipeline_name info) (step_name info) rng in
    let timeout_ := [("attemptDurationSeconds", timeout_seconds st)] in
    bind (Ok tt, (EvGetRunStep (step_run_id info) :: t))
      (fun _ =>
        if node_count st =? 1 then
          AWSBatchJobDefinition_new job_name timeout_
            {| kw_type := Some "container";
               kw_containerProperties := Some cp;
               kw_nodeProperties := None;
               kw_retryStrategy := None |}
        else
          nrp <- NodeRangeProperty_new
                   (py_join "," (map py_str_int (py_range (node_count st)))) cp ;;
          np <- NodeProperties_new (node_count st) [nrp] ;;
          AWSBatchJobDefinition_new job_name timeout_
            {| kw_type := Some "multinode";
               kw_containerProperties := None;
               kw_nodeProperties := Some np;
               kw_retryStrategy := None |}).
Proof.
  destruct (map_resource_settings_ok (resource_settings info)) as (l & t & E).
  exists l, t.
  unfold generate_job_definition, get_run_step_name.
  unfold bind at 1 2. simpl. rewrite E. unfold bind at 1. simpl.
  destruct (node_count st =? 1); reflexivity.
Qed.

(** C2 (as the code behaves). With node count 1 the compiler does not
    produce a single-container job definition: the [containerProperties]
    field receives the one-element tuple bound to [container_properties]
    (trailing comma in the source), and constructing [AWSBatchJobDefinition]
    raises a pydantic [ValidationError]. *)
Theorem generate_job_definition_single_node_raises cfg st info cmd env rng :
  node_count st = 1 ->
  fst (generate_job_definition cfg st info cmd env rng)
  = Raise (ValidationError "AWSBatchJobDefinition").
Proof.
  intros Hn.
  destruct (generate_job_definition_unfold cfg st info cmd env rng)
    as (resources & t & ->).
  rewrite Hn. unfold_M. reflexivity.
Qed.

Definition sample_config : AWSBatchStepOperatorConfig :=
  {| execution_role := "arn:aws:iam::123:role/exec";
     job_role := "arn:aws:iam::123:role/job";
     job_queue_name := "queue" |}.

Definition sample_settings (n : Z) : AWSBatchStepOperatorSettings :=
  {| instance_type := "m5.large"; node_count := n; timeout_seconds := 3600 |}.

Definition sample_info : StepRunInfo :=
  {| pipeline_name := "training_pipeline";
     step_run_id := "run-1";
     step_name := "trainer";
     image_name := "123.dkr.ecr.eu-west-1.amazonaws.com/zenml:trainer";
     resource_settings := {| rs_cpu_count := Some (23 # 10);
                             rs_gpu_count := None;
                             rs_memory_mib := Some (512 # 1) |} |}.

Definition sample_rng : nat -> ascii := fun _ => "x"%char.

Lemma generate_job_definition_single_node_raises_witness :
  node_count (sample_settings 1) = 1
  /\ fst (generate_job_definition sample_config (sample_settings 1) sample_info
            ["python"; "-m"; "entrypoint"] [("ZENML_X", "1")] sample_rng)
     = Raise (ValidationError "AWSBatchJobDefinition").
Proof.
  split; [reflexivity|].
  apply generate_job_definition_single_node_raises. reflexivity.
Defined.

(** C4 (as the code behaves). With node count [n >= 2] the compiler does not
    produce a multi-node job definition: the node-range entry receives the
    one-element tuple bound to [container_properties] as its [container],
    and constructing it raises a pydantic [ValidationError]. *)
Theorem generate_job_definition_multi_node_raises cfg st info cmd env rng :
  2 <= node_count st ->
  fst (generate_job_definition cfg st info cmd env rng)
  = Raise (ValidationError "AWSBatchJobDefinitionNodePropertiesNodeRangeProperty").
Proof.
  intros Hn.
  destruct (generate_job_definition_unfold cfg st info cmd env rng)
    as (resources & t & ->).
  replace (node_count st =? 1) with false by (symmetry; apply Z.eqb_neq; lia).
  unfold_M. reflexivity.
Qed.

Lemma generate_job_definition_multi_node_raises_witness :
  2 <= node_count (sample_settings 4)
  /\ fst (generate_job_definition sample_config (sample_settings 4) sample_info
            ["python"; "-m"; "entrypoint"] [("ZENML_X", "1")] sample_rng)
     = Raise (ValidationError "AWSBatchJobDefinitionNodePropertiesNodeRangeProperty").
Proof.
  assert (H : 2 <= node_count (sample_settings 4)) by (simpl; lia).
  split; [exact H|].
  apply generate_job_definition_multi_node_raises. exact H.
Defined.

(** The node-range string the compiler builds for [n] nodes. *)
Lemma target_nodes_four :
  py_join "," (map py_str_int (py_range 4)) = "0,1,2,3".
Proof. reflexivity. Qed.

(** ** C3: node count 0 *)

(** Calls that leave the process: the ZenML client and the batch client. *)
Definition is_external_call (e : event) : bool :=
  match e with
  | EvGetRunStep _ => true
  | _ => is_batch_call e
  end.

Lemma map_resource_settings_only_logs (rs : ResourceSettings) :
  Forall (fun ev => is_external_call ev = false) (snd (map_resource_settings rs)).
Proof.
  destruct rs as [cpu gpu mem].
  unfold map_resource_settings, rs_empty; simpl.
  destruct cpu as [c|], gpu as [g|], mem as [m|]; simpl;
    try (destruct (py_int_ne_float (py_ceil c) c));
    unfold_M; repeat constructor.
Qed.

Definition sample_settings_input (n : Z) : StepSettingsInput :=
  {| in_instance_type := "m5.large"; in_node_count := n;
     in_timeout_seconds := 3600 |}.

Definition sample_batch : BatchService :=
  {| register_answer := Ok "def"; submit_answer := Ok "job";
     describe_answers := [] |}.

(** C3, as stated, fails: with node count 0 the failure is pydantic's
    [ValidationError] of the settings class, raised by [get_settings]; the
    code defines and raises no [ConfigurationError]. *)
Lemma launch_node_count_zero_validation_error :
  fst (launch_from_config sample_config (sample_settings_input 0) sample_info
         ["python"] [] sample_rng sample_batch)
  = Raise (ValidationError "AWSBatchStepOperatorSettings").
Proof. reflexivity. Qed.

(** C3 (amended). A node count that is not a positive int (0 in
    particular) makes [launch] fail with a pydantic [ValidationError] while
    the step settings are read, before any client or network call: the
    trace is empty, so the ZenML client is not asked for the step name and
    the batch service is never contacted. *)
Theorem launch_node_count_zero_no_external_call cfg s info cmd env rng batch :
  in_node_count s <= 0 ->
  launch_from_config cfg s info cmd env rng batch
  = (Raise (ValidationError "AWSBatchStepOperatorSettings"), []).
Proof.
  intros Hn. unfold launch_from_config, get_settings.
  replace (0 <? in_node_count s) with false by (symmetry; apply Z.ltb_ge; exact Hn).
  reflexivity.
Qed.

Lemma launch_node_count_zero_no_external_call_witness :
  in_node_count (sample_settings_input 0) <= 0
  /\ launch_from_config sample_config (sample_settings_input 0) sample_info
       ["python"] [] sample_rng sample_batch
     = (Raise (ValidationError "AWSBatchStepOperatorSettings"), []).
Proof.
  assert (H : in_node_count (sample_settings_input 0) <= 0) by (simpl; lia).
  split; [exact H|].
  apply launch_node_count_zero_no_external_call. exact H.
Defined.

(** ** C8: determinism up to the random suffix *)

Definition with_name (d : AWSBatchJobDefinition) (n : string) : AWSBatchJobDefinition :=
  {| jobDefinitionName := n;
     type_ := type_ d;
     parameters := parameters d;
     schedulingPriority := schedulingPriority d;
     containerProperties := containerProperties d;
     nodeProperties := nodeProperties d;
     retryStrategy := retryStrategy d;
     propagateTags := propagateTags d;
     timeout := timeout d;
     tags := tags d;
     platformCapabilities := platformCapabilities d |}.

(** The outcome of a compile with the job name blanked out. *)
Definition erase_name (m : M AWSBatchJobDefinition) : M AWSBatchJobDefinition :=
  (match fst m with
   | Ok d => Ok (with_name d "")
   | Raise e => Raise e
   end, snd m).

Lemma erase_name_bind {A} (m : M A) (f g : A -> M AWSBatchJobDefinition) :
  (forall a, erase_name (f a) = erase_name (g a)) ->
  erase_name (bind m f) = erase_name (bind m g).
Proof.
  intros H. destruct m as [[a|e] t]; simpl; [|reflexivity].
  specialize (H a). unfold erase_name in *.
  destruct (f a) as [r1 t1], (g a) as [r2 t2]; simpl in *.
  injection H as Hr Ht. rewrite Hr, Ht. reflexivity.
Qed.

Lemma erase_name_new (n1 n2 : string) t kw :
  erase_name (AWSBatchJobDefinition_new n1 t kw)
  = erase_name (AWSBatchJobDefinition_new n2 t kw).
Proof.
  unfold AWSBatchJobDefinition_new.
  apply erase_name_bind; intros ty.
  apply erase_name_bind; intros cp.
  reflexivity.
Qed.

(** C8. Two compiles on the same inputs, with any two random sources,
    have the same outcome, the same exception when one is raised, the same
    effects, and job definitions that agree on every field but
    [jobDefinitionName], whose random suffix is the only part drawn from
    the random source (C6). *)
Theorem generate_job_definition_deterministic cfg st info cmd env
    (rng1 rng2 : nat -> ascii) :
  erase_name (generate_job_definition cfg st info cmd env rng1)
  = erase_name (generate_job_definition cfg st info cmd env rng2).
Proof.
  unfold generate_job_definition.
  apply erase_name_bind; intros sn.
  apply erase_name_bind; intros resources.
  cbv zeta. destruct (node_count st =? 1).
  - apply erase_name_new.
  - apply erase_name_bind; intros nrp.
    apply erase_name_bind; intros np.
    apply erase_name_new.
Qed.

(** ** C9: the retry strategy *)

(** Every job definition a computation may return satisfies [P]. *)
Definition all_ok (P : AWSBatchJobDefinition -> Prop) (m : M AWSBatchJobDefinition)
  : Prop :=
  match fst m with Ok d => P d | Raise _ => True end.

Lemma all_ok_bind {A} P (m : M A) (f : A -> M AWSBatchJobDefinition) :
  (forall a, all_ok P (f a)) -> all_ok P (bind m f).
Proof.
  intros H. destruct m as [[a|e] t]; simpl; [|exact I].
  specialize (H a). unfold all_ok in *. destruct (f a) as [r t']; exact H.
Qed.

Lemma all_ok_new_default_retry n t ty cp np :
  all_ok (fun d => retryStrategy d = default_retry_strategy)
    (AWSBatchJobDefinition_new n t
       {| kw_type := ty; kw_containerProperties := cp;
          kw_nodeProperties := np; kw_retryStrategy := None |}).
Proof.
  unfold AWSBatchJobDefinition_new.
  apply all_ok_bind; intros ty'.
  apply all_ok_bind; intros cp'.
  reflexivity.
Qed.

(** C9. The compiler never passes a retry strategy, so any job definition
    the [AWSBatchJobDefinition] constructor builds for it carries the
    default: 2 attempts and the rules, in order, exit code [137] -> RETRY,
    reason [*Host EC2*] -> RETRY, exit code [*] -> EXIT. *)
Theorem job_definition_default_retry_strategy :
  (forall cfg st info cmd env rng,
     all_ok (fun d => retryStrategy d = default_retry_strategy)
       (generate_job_definition cfg st info cmd env rng))
  /\ (forall n t ty cp np,
        all_ok (fun d => retryStrategy d = default_retry_strategy)
          (AWSBatchJobDefinition_new n t
             {| kw_type := ty; kw_containerProperties := cp;
                kw_nodeProperties := np; kw_retryStrategy := None |}))
  /\ attempts default_retry_strategy = 2
  /\ evaluateOnExit default_retry_strategy
     = [ [("onExitCode", "137"); ("action", "RETRY")];
         [("onReason", "*Host EC2*"); ("action", "RETRY")];
         [("onExitCode", "*"); ("action", "EXIT")] ].
Proof.
  split; [|split; [apply all_ok_new_default_retry|split; reflexivity]].
  intros cfg st info cmd env rng.
  unfold generate_job_definition.
  apply all_ok_bind; intros sn.
  apply all_ok_bind; intros resources.
  cbv zeta. destruct (node_count st =? 1).
  - apply all_ok_new_default_retry.
  - apply all_ok_bind; intros nrp.
    apply all_ok_bind; intros np.
    apply all_ok_new_default_retry.
Qed.

(** The constructor does build a definition when given a model instance:
    the default retry strategy is then present. *)
Example new_with_model_instance :
  forall cp, exists d,
    fst (AWSBatchJobDefinition_new "job" [("attemptDurationSeconds", 60)]
           {| kw_type := Some "container"; kw_containerProperties := Some (ArgModel cp);
              kw_nodeProperties := None; kw_retryStrategy := None |}) = Ok d
    /\ retryStrategy d = default_retry_strategy.
Proof. intros cp. eexists. split; reflexivity. Qed.

(** ** C1: the poll loop *)

(** [response['jobs'][0]['status']] is a [str] in the service's answers. *)
Definition status_is_str (a : describe_response) : Prop :=
  match a with
  | DescribeReturns (j :: _) => exists s, jd_status j = PyStr s
  | _ => True
  end.

(** C1 (as the code behaves). The loop compares the [str] status with the
    one-element lists [['SUCCEEDED']] and [['FAILED']]; a [str] never equals
    a [list], so neither branch is ever taken: whatever statuses the
    service reports, the loop never returns normally and never raises the
    job-failure [RuntimeError]; it keeps sleeping and polling until a
    describe call fails. *)
Theorem poll_loop_never_terminates_on_status (job_id : string)
    (answers : list describe_response) :
  Forall status_is_str answers ->
  fst (poll_loop job_id answers) <> Ok Broke
  /\ (forall msg, fst (poll_loop job_id answers) <> Raise (RuntimeError msg)).
Proof.
  induction 1 as [|a rest Ha _ IH]; simpl.
  - split; [discriminate|intros msg; discriminate].
  - destruct a as [msg0|[|j js]]; unfold bind, emit, raise, ret; simpl.
    + split; [discriminate|intros msg; discriminate].
    + split; [discriminate|intros msg; discriminate].
    + destruct Ha as [s Hs]. rewrite Hs. simpl.
      destruct (poll_loop job_id rest) as [r t]. exact IH.
Qed.

Lemma poll_loop_never_terminates_on_status_witness :
  Forall status_is_str
    [DescribeReturns [{| jd_status := PyStr "RUNNING"; jd_statusReason := None |}];
     DescribeReturns [{| jd_status := PyStr "SUCCEEDED"; jd_statusReason := None |}]]
  /\ fst (poll_loop "job-1"
            [DescribeReturns [{| jd_status := PyStr "RUNNING"; jd_statusReason := None |}];
             DescribeReturns [{| jd_status := PyStr "SUCCEEDED"; jd_statusReason := None |}]])
     <> Ok Broke.
Proof.
  assert (H : Forall status_is_str
    [DescribeReturns [{| jd_status := PyStr "RUNNING"; jd_statusReason := None |}];
     DescribeReturns [{| jd_status := PyStr "SUCCEEDED"; jd_statusReason := None |}]]).
  { repeat constructor; simpl; eexists; reflexivity. }
  split; [exact H|].
  exact (proj1 (poll_loop_never_terminates_on_status "job-1" _ H)).
Defined.

(** The failing inputs of C1: a [SUCCEEDED] answer and a [FAILED] answer
    with reason [OutOfMemoryError] both lead to a sleep and another poll. *)
Example poll_loop_succeeded_and_failed_keep_polling :
  poll_loop "job-1"
    [DescribeReturns [{| jd_status := PyStr "SUCCEEDED"; jd_statusReason := None |}]]
  = (Ok StillPolling, [EvDescribeJobs "job-1"; EvSleep 10])
  /\ poll_loop "job-1"
    [DescribeReturns [{| jd_status := PyStr "FAILED";
                         jd_statusReason := Some "OutOfMemoryError" |}]]
  = (Ok StillPolling, [EvDescribeJobs "job-1"; EvSleep 10]).
Proof. split; reflexivity. Qed.

(** The branches are reachable only with a list-valued status. *)
Example poll_loop_list_status_breaks :
  poll_loop "job-1"
    [DescribeReturns [{| jd_status := PyList [PyStr "SUCCEEDED"];
                         jd_statusReason := None |}]]
  = (Ok Broke, [EvDescribeJobs "job-1"; EvLog (LogJobSucceeded "job-1")]).
Proof. reflexivity. Qed.

(* ================================================================== *)
(** * Further properties of the operator *)

(** ** Reading decimal strings back *)

Definition digit_val (c : ascii) : Z := Z.of_nat (nat_of_ascii c) - 48.

Definition is_digit (c : ascii) : bool :=
  (48 <=? nat_of_ascii c)%nat && (nat_of_ascii c <=? 57)%nat.

Fixpoint all_digits (s : string) : bool :=
  match s with
  | EmptyString => true
  | String c s' => is_digit c && all_digits s'
  end.

Fixpoint dec_fold (a : Z) (s : string) : Z :=
  match s with
  | EmptyString => a
  | String c s' => dec_fold (a * 10 + digit_val c) s'
  end.

Definition parse_digits (s : string) : option Z :=
  match s with
  | EmptyString => None
  | _ => if all_digits s then Some (dec_fold 0 s) else None
  end.

(** Reads back a string of the form [str(i)] produces for a Python [int]:
    an optional [-] and a non-empty run of decimal digits. *)
Definition decimal_value (s : string) : option Z :=
  match s with
  | String c rest =>
      if Ascii.eqb c "-"%char then option_map Z.opp (parse_digits rest)
      else parse_digits s
  | EmptyString => None
  end.

(** [s.split(sep)] for a one-character separator. *)
Fixpoint py_split (sep : ascii) (s : string) : list string :=
  match s with
  | EmptyString => [""]
  | String c s' =>
      if Ascii.eqb c sep then "" :: py_split sep s'
      else match py_split sep s' with
           | [] => [String c ""]
           | x :: xs => String c x :: xs
           end
  end.

Fixpoint has_char (sep : ascii) (s : string) : bool :=
  match s with
  | EmptyString => false
  | String c s' => Ascii.eqb c sep || has_char sep s'
  end.

Lemma str_append_nil_r (s : string) : (s ++ "")%string = s.
Proof. induction s as [|c s IH]; simpl; congruence. Qed.

Lemma dec_fold_append (a : Z) (s1 s2 : string) :
  dec_fold a (s1 ++ s2) = dec_fold (dec_fold a s1) s2.
Proof. revert a; induction s1 as [|c s1 IH]; intros a; simpl; auto. Qed.

Lemma all_digits_append (s1 s2 : string) :
  all_digits (s1 ++ s2) = all_digits s1 && all_digits s2.
Proof.
  induction s1 as [|c s1 IH]; simpl; auto.
  rewrite IH. apply andb_assoc.
Qed.

Lemma digit_char_spec (d : Z) :
  0 <= d < 10 ->
  is_digit (ascii_of_nat (48 + Z.to_nat d)) = true
  /\ digit_val (ascii_of_nat (48 + Z.to_nat d)) = d.
Proof.
  intros Hd. unfold is_digit, digit_val.
  rewrite nat_ascii_embedding by lia.
  split.
  - apply andb_true_intro; split; apply Nat.leb_le; lia.
  - lia.
Qed.

Lemma digits_aux_spec (fuel : nat) :
  forall n acc, 0 <= n < 10 ^ Z.of_nat fuel -> (1 <= fuel)%nat ->
  exists ds, digits_aux fuel n acc = (ds ++ acc)%string /\ ds <> ""%string
    /\ all_digits ds = true /\ dec_fold 0 ds = n.
Proof.
  induction fuel as [|f IH]; intros n acc Hn Hf; [lia|].
  assert (Hm : 0 <= n mod 10 < 10) by (apply Z.mod_pos_bound; lia).
  destruct (digit_char_spec (n mod 10) Hm) as [Hdig Hval].
  cbn [digits_aux].
  set (c := ascii_of_nat (48 + Z.to_nat (n mod 10))) in *.
  clearbody c.
  destruct (n <? 10) eqn:Hlt.
  - apply Z.ltb_lt in Hlt.
    exists (String c ""). repeat split; try discriminate.
    + simpl. now rewrite Hdig.
    + simpl. rewrite Hval. rewrite Z.mod_small; lia.
  - apply Z.ltb_ge in Hlt.
    assert (Hf' : (1 <= f)%nat).
    { destruct f; [|lia]. simpl in Hn. lia. }
    assert (Hq : 0 <= n / 10 < 10 ^ Z.of_nat f).
    { split; [apply Z.div_pos; lia|].
      apply Z.div_lt_upper_bound; [lia|].
      rewrite Nat2Z.inj_succ, Z.pow_succ_r in Hn by lia. lia. }
    destruct (IH (n / 10) (String c acc) Hq Hf') as (ds & Heq & Hne & Hall & Hv).
    exists (ds ++ String c "")%string. rewrite Heq.
    repeat split.
    + clear. induction ds as [|x ds IH]; simpl; auto. now rewrite IH.
    + destruct ds; [contradiction|discriminate].
    + rewrite all_digits_append, Hall. simpl. now rewrite Hdig.
    + rewrite dec_fold_append, Hv. simpl. rewrite Hval.
      pose proof (Z.div_mod n 10). lia.
Qed.

Lemma nat_digits_spec (n : Z) :
  0 <= n ->
  nat_digits n <> ""%string /\ all_digits (nat_digits n) = true
  /\ dec_fold 0 (nat_digits n) = n.
Proof.
  intros Hn. unfold nat_digits.
  assert (Hb : n < 10 ^ Z.of_nat (S (Z.to_nat (Z.log2 n)))).
  { rewrite Nat2Z.inj_succ, Z2Nat.id by apply Z.log2_nonneg.
    destruct (Z.eq_dec n 0) as [->|Hnz]; [simpl; lia|].
    destruct (Z.log2_spec n) as [_ Hup]; [lia|].
    eapply Z.lt_le_trans; [exact Hup|].
    apply Z.pow_le_mono_l. split; [lia|lia]. }
  destruct (digits_aux_spec (S (Z.to_nat (Z.log2 n))) n "" (conj Hn Hb))
    as (ds & Heq & Hne & Hall & Hv); [lia|].
  rewrite Heq, str_append_nil_r. auto.
Qed.

Lemma all_digits_no_char (sep : ascii) (s : string) :
  is_digit sep = false -> all_digits s = true -> has_char sep s = false.
Proof.
  intros Hsep. induction s as [|c s IH]; simpl; auto.
  intros H. apply andb_prop in H as [Hc Hs].
  rewrite IH by exact Hs. rewrite orb_false_r.
  destruct (Ascii.eqb_spec c sep) as [->|]; [congruence|reflexivity].
Qed.

Lemma py_str_int_spec (z : Z) :
  decimal_value (py_str_int z) = Some z /\ has_char ","%char (py_str_int z) = false.
Proof.
  unfold py_str_int. destruct (z <? 0) eqn:Hz.
  - apply Z.ltb_lt in Hz.
    destruct (nat_digits_spec (- z)) as (Hne & Hall & Hv); [lia|].
    simpl. split.
    + unfold parse_digits. destruct (nat_digits (- z)); [contradiction|].
      rewrite Hall, Hv. simpl. f_equal. lia.
    + now apply all_digits_no_char.
  - apply Z.ltb_ge in Hz.
    destruct (nat_digits_spec z) as (Hne & Hall & Hv); [lia|].
    split; [|now apply all_digits_no_char].
    destruct (nat_digits z) as [|c s] eqn:Hd; [contradiction|].
    unfold decimal_value.
    simpl in Hall. apply andb_prop in Hall as [Hc _].
    destruct (Ascii.eqb_spec c "-"%char) as [->|_]; [discriminate|].
    unfold parse_digits. rewrite <- Hd. destruct (nat_digits_spec z) as (_ & -> & ->); auto.
Qed.

Lemma py_split_no_sep (sep : ascii) (x : string) :
  has_char sep x = false -> py_split sep x = [x].
Proof.
  induction x as [|c x IH]; simpl; auto.
  intros H. apply orb_false_elim in H as [Hc Hx].
  rewrite Hc, IH by exact Hx. reflexivity.
Qed.

Lemma py_split_app (sep : ascii) (x rest : string) :
  has_char sep x = false ->
  py_split sep (x ++ String sep rest) = x :: py_split sep rest.
Proof.
  induction x as [|c x IH]; simpl; intros H.
  - now rewrite Ascii.eqb_refl.
  - apply orb_false_elim in H as [Hc Hx].
    rewrite Hc, IH by exact Hx. reflexivity.
Qed.

Lemma py_split_join (xs : list string) :
  xs <> [] -> Forall (fun x => has_char ","%char x = false) xs ->
  py_split ","%char (py_join "," xs) = xs.
Proof.
  intros Hne Hall. induction Hall as [|x xs Hx Hxs IH]; [contradiction|].
  destruct xs as [|y ys].
  - simpl. now apply py_split_no_sep.
  - change (py_join "," (x :: y :: ys)) with (x ++ String ","%char (py_join "," (y :: ys)))%string.
    rewrite py_split_app by exact Hx. rewrite IH by discriminate. reflexivity.
Qed.

(** The node indices of a multi-node job, as they can be read back from the
    [targetNodes] string. *)
Definition decoded_target_nodes (n : Z) : list (option Z) :=
  map decimal_value (py_split ","%char (py_join "," (map py_str_int (py_range n)))).

(** For [n >= 1] nodes the [targetNodes] string built by the compiler,
    [','.join([str(i) for i in range(n)])], splits on commas into exactly
    [n] fields, which read back as the node indices [0, 1, ..., n-1]. *)
Theorem target_nodes_roundtrip (n : Z) :
  1 <= n ->
  decoded_target_nodes n = map (fun i => Some (Z.of_nat i)) (seq 0 (Z.to_nat n))
  /\ List.length (py_split ","%char (py_join "," (map py_str_int (py_range n))))
     = Z.to_nat n.
Proof.
  intros Hn.
  assert (Hsplit : py_split ","%char (py_join "," (map py_str_int (py_range n)))
                   = map py_str_int (py_range n)).
  { apply py_split_join.
    - unfold py_range. destruct (Z.to_nat n) eqn:E; [lia|discriminate].
    - apply Forall_forall. intros x Hx. apply in_map_iff in Hx as (z & <- & _).
      apply py_str_int_spec. }
  unfold decoded_target_nodes. rewrite Hsplit. split.
  - unfold py_range. rewrite !map_map. apply map_ext. intros i.
    apply py_str_int_spec.
  - unfold py_range. now rewrite !length_map, length_seq.
Qed.

Lemma target_nodes_roundtrip_witness :
  1 <= 3 /\ decoded_target_nodes 3 = [Some 0; Some 1; Some 2].
Proof.
  split; [lia|].
  exact (proj1 (target_nodes_roundtrip 3 ltac:(lia))).
Defined.

(** ** Values and diagnostics of the resource mapper *)

(** The [(type, value read back)] pair expected for a field that is set. *)
Definition entry_if {A} (o : option A) (tag : string) (f : A -> Z)
  : list (option string * option Z) :=
  match o with Some a => [(Some tag, Some (f a))] | None => [] end.

Definition decode_entry (d : str_dict) : option string * option Z :=
  (dict_get "type" d, match dict_get "value" d with
                      | Some v => decimal_value v
                      | None => None
                      end).

(** The values of the resource entries read back as integers: the CPU
    count rounded up ([math.ceil]), the GPU count unchanged, and the
    memory in MiB truncated toward zero ([int()]), so a fractional memory
    request is rounded down while a fractional CPU request is rounded up. *)
Theorem map_resource_settings_values (rs : ResourceSettings) :
  exists l, fst (map_resource_settings rs) = Ok l
  /\ map decode_entry l
     = (entry_if (rs_cpu_count rs) "VCPU" py_ceil
        ++ entry_if (rs_gpu_count rs) "GPU" (fun g => g)
        ++ entry_if (rs_memory_mib rs) "MEMORY" py_int_of_float)%list.
Proof.
  destruct rs as [cpu gpu mem].
  unfold map_resource_settings, rs_empty; simpl.
  destruct cpu as [c|], gpu as [g|], mem as [m|]; simpl;
    try (destruct (py_int_ne_float (py_ceil c) c));
    unfold_M; eexists; (split; [reflexivity|]); simpl;
    unfold decode_entry; simpl;
    repeat rewrite (proj1 (py_str_int_spec _)); reflexivity.
Qed.

Lemma Qceiling_bounds (c : Q) : (c <= inject_Z (Qceiling c) < c + 1)%Q.
Proof.
  split; [apply Qle_ceiling|].
  pose proof (Qceiling_lt c) as H.
  unfold Z.sub in H. rewrite inject_Z_plus, inject_Z_opp in H.
  change (inject_Z 1) with 1%Q in H.
  lra.
Qed.

(** The resource mapper writes a diagnostic only for a CPU count that is
    not an integer, exactly one, recording the count and its rounded-up
    value; that value is at least the requested count and less than one
    above it.  Unset CPU counts and integral ones are passed silently. *)
Theorem map_resource_settings_diagnostics (rs : ResourceSettings) :
  snd (map_resource_settings rs)
  = match rs_cpu_count rs with
    | Some c =>
        if Qeq_bool (inject_Z (py_ceil c)) c then []
        else [EvLog (LogCpuConverted c (py_ceil c))]
    | None => []
    end
  /\ (forall c, rs_cpu_count rs = Some c ->
        (c <= inject_Z (py_ceil c) < c + 1)%Q).
Proof.
  split.
  - destruct rs as [cpu gpu mem].
    unfold map_resource_settings, rs_empty, py_int_ne_float; simpl.
    destruct cpu as [c|], gpu as [g|], mem as [m|]; simpl; unfold_M; auto;
      destruct (Qeq_bool (inject_Z (py_ceil c)) c); reflexivity.
  - intros c _. apply Qceiling_bounds.
Qed.

(** ** The job name, length exactly *)

Lemma substring_0_length (n : nat) (s : string) :
  String.length (substring 0 n s) = Nat.min n (String.length s).
Proof.
  revert s; induction n as [|n IH]; intros [|c s]; simpl; auto.
Qed.

(** The job name keeps [<pipeline>-<step>] whole when it has at most 55
    characters and cuts it to its first 55 otherwise; the name is that
    part plus 5 characters ([-] and the 4-character suffix), so it is
    exactly 60 characters long whenever a cut happens. *)
Theorem generate_unique_batch_job_name_length (pipeline step : string)
    (rng : nat -> ascii) :
  let full := (pipeline ++ "-" ++ step)%string in
  String.length (generate_unique_batch_job_name pipeline step rng)
    = (Nat.min 55 (String.length full) + 5)%nat
  /\ ((String.length full <= 55)%nat -> substring 0 55 full = full).
Proof.
  intros full. split.
  - unfold generate_unique_batch_job_name. fold full.
    rewrite !str_length_append, random_str_length, substring_0_length.
    change (String.length "-") with 1%nat. lia.
  - clearbody full. revert full. clear.
    assert (H : forall n s, (String.length s <= n)%nat -> substring 0 n s = s).
    { induction n as [|n IH]; intros [|c s] Hl; simpl in *; auto; try lia.
      rewrite IH; auto; lia. }
    intros full Hl. now apply H.
Qed.

(* ------------------------------------------------------------------ *)
(** ** The stack validator *)

Record ArtifactStoreView : Type := {
  artifact_store_name : string;
  artifact_store_is_local : bool  (* artifact_store.config.is_local *)
}.

Record ContainerRegistryView : Type := {
  container_registry_name : string;
  container_registry_is_local : bool
}.

Record StackView : Type := {
  stack_artifact_store : ArtifactStoreView;
  stack_container_registry : option ContainerRegistryView
}.

(** [return ok, message], or the [AssertionError] of
    [assert container_registry is not None]. *)
Inductive validation_outcome : Type :=
  | VReturns (ok : bool) (message : string)
  | VAssertionError.

(** [_validate_remote_components] inside [AWSBatchStepOperator.validator] *)
Definition validate_remote_components (stack : StackView) : validation_outcome :=
  let store := stack_artifact_store stack in
  if artifact_store_is_local store then
    VReturns false
      ("The Batch step operator runs code remotely and "
       ++ "needs to write files into the artifact store, but the "
       ++ "artifact store `" ++ artifact_store_name store ++ "` of the "
       ++ "active stack is local. Please ensure that your stack "
       ++ "contains a remote artifact store when using the Batch "
       ++ "step operator.")
  else
    match stack_container_registry stack with
    | None => VAssertionError
    | Some container_registry =>
        if container_registry_is_local container_registry then
          VReturns false
            ("The Batch step operator runs code remotely and "
             ++ "needs to push/pull Docker images, but the "
             ++ "container registry `" ++ container_registry_name container_registry
             ++ "` of the "
             ++ "active stack is local. Please ensure that your stack "
             ++ "contains a remote container registry when using the "
             ++ "Batch step operator.")
        else VReturns true ""
    end.

(** [s] occurs in [t]. *)
Definition substring_of (s t : string) : Prop :=
  exists pre post, t = (pre ++ s ++ post)%string.

Lemma substring_of_head (s t : string) : substring_of s (s ++ t).
Proof. exists ""%string, t. reflexivity. Qed.

Lemma substring_of_app_l (s u t : string) :
  substring_of s t -> substring_of s (u ++ t).
Proof.
  intros (pre & post & ->). exists (u ++ pre)%string, post.
  clear. induction u as [|c u IH]; simpl; congruence.
Qed.

(** The validator accepts a stack exactly when its artifact store is remote
    and its container registry is present and remote, and then with an
    empty message.  A local artifact store is rejected first, whatever the
    registry (even a missing one), with a message naming the store; a
    local registry behind a remote store is rejected with a message naming
    the registry; a missing registry behind a remote store fails the
    [assert] instead of returning. *)
Theorem validate_remote_components_spec (stack : StackView) :
  (validate_remote_components stack = VReturns true ""
   <-> artifact_store_is_local (stack_artifact_store stack) = false
       /\ exists r, stack_container_registry stack = Some r
                    /\ container_registry_is_local r = false)
  /\ (forall msg, validate_remote_components stack = VReturns true msg -> msg = "")
  /\ (artifact_store_is_local (stack_artifact_store stack) = true ->
      exists msg, validate_remote_components stack = VReturns false msg
        /\ substring_of (artifact_store_name (stack_artifact_store stack)) msg)
  /\ (forall r, artifact_store_is_local (stack_artifact_store stack) = false ->
      stack_container_registry stack = Some r -> container_registry_is_local r = true ->
      exists msg, validate_remote_components stack = VReturns false msg
        /\ substring_of (container_registry_name r) msg)
  /\ (validate_remote_components stack = VAssertionError
      <-> artifact_store_is_local (stack_artifact_store stack) = false
          /\ stack_container_registry stack = None).
Proof.
  destruct stack as [[sname slocal] reg]; unfold validate_remote_components.
  cbn -[append].
  split; [split|split; [|split; [|split; [|split]]]].
  - destruct slocal; [discriminate|].
    destruct reg as [[rname []]|]; try discriminate. intros _. eauto.
  - intros [-> (r & -> & Hr)]. now rewrite Hr.
  - intros msg. destruct slocal; [discriminate|].
    destruct reg as [[rname []]|]; try discriminate. intros H; now inversion H.
  - intros ->. eexists. split; [reflexivity|].
    repeat (apply substring_of_head || apply substring_of_app_l).
  - intros r -> -> Hr. rewrite Hr. eexists. split; [reflexivity|].
    repeat (apply substring_of_head || apply substring_of_app_l).
  - destruct slocal; [discriminate|]. destruct reg as [[rname []]|]; try discriminate.
    auto.
  - intros [-> ->]. reflexivity.
Qed.

(* ------------------------------------------------------------------ *)
(** ** [get_docker_builds] *)

Definition BATCH_DOCKER_IMAGE_KEY : string := "aws_batch_step_operator".
Definition _ENTRYPOINT_ENV_VARIABLE : string := "__ZENML_ENTRYPOINT".

Section DockerBuilds.
(** [step.config.docker_settings], opaque to this code. *)
Context {DockerSettings : Type}.

(** What [get_docker_builds] reads from a step configuration;
    [uses_step_operator] is the method [step.config.uses_step_operator]. *)
Record StepConfigView : Type := {
  uses_step_operator : string -> bool;
  docker_settings : DockerSettings
}.

Record BuildConfiguration : Type := {
  build_key : string;
  build_settings : DockerSettings;
  build_step_name : string;
  build_entrypoint : string
}.

(** The body of the [for] loop over [deployment.step_configurations]. *)
Fixpoint get_docker_builds_loop (operator_name : string)
    (steps : list (string * StepConfigView)) (builds : list BuildConfiguration)
  : list BuildConfiguration :=
  match steps with
  | [] => builds
  | (step_name_, step) :: rest =>
      if uses_step_operator step operator_name then
        get_docker_builds_loop operator_name rest
          (builds ++ [ {| build_key := BATCH_DOCKER_IMAGE_KEY;
                          build_settings := docker_settings step;
                          build_step_name := step_name_;
                          build_entrypoint := "$" ++ _ENTRYPOINT_ENV_VARIABLE |} ])%list
      else get_docker_builds_loop operator_name rest builds
  end.

(** [AWSBatchStepOperator.get_docker_builds]; [steps] is
    [deployment.step_configurations] in its iteration order. *)
Definition get_docker_builds (operator_name : string)
    (steps : list (string * StepConfigView)) : list BuildConfiguration :=
  get_docker_builds_loop operator_name steps [].
End DockerBuilds.

(** The image build requested for one step. *)
Definition build_for {D} (step_name_ : string) (step : @StepConfigView D)
  : @BuildConfiguration D :=
  {| build_key := "aws_batch_step_operator";
     build_settings := docker_settings step;
     build_step_name := step_name_;
     build_entrypoint := "$__ZENML_ENTRYPOINT" |}.

Lemma get_docker_builds_loop_spec {D} name steps (acc : list (@BuildConfiguration D)) :
  get_docker_builds_loop name steps acc
  = (acc ++ map (fun '(n, s) => build_for n s)
                (filter (fun '(_, s) => uses_step_operator s name) steps))%list.
Proof.
  revert acc; induction steps as [|[n s] steps IH]; intros acc; simpl.
  - now rewrite app_nil_r.
  - destruct (uses_step_operator s name); rewrite IH; simpl; auto.
    now rewrite <- app_assoc.
Qed.

(** [get_docker_builds] requests one image build per step that uses this
    operator and none for the others, in the order of the deployment's
    steps; each build carries the step's own Docker settings, the image key
    [aws_batch_step_operator] and the entrypoint [$__ZENML_ENTRYPOINT]; as
    the step names are the keys of a dict, no step gets two builds. *)
Theorem get_docker_builds_spec {D} (operator_name : string)
    (steps : list (string * @StepConfigView D)) :
  NoDup (map fst steps) ->
  get_docker_builds operator_name steps
    = map (fun '(n, s) => build_for n s)
          (filter (fun '(_, s) => uses_step_operator s operator_name) steps)
  /\ NoDup (map build_step_name (get_docker_builds operator_name steps))
  /\ List.length (get_docker_builds operator_name steps)
     = List.length (filter (fun '(_, s) => uses_step_operator s operator_name) steps).
Proof.
  intros Hnd.
  assert (E : get_docker_builds operator_name steps
              = map (fun '(n, s) => build_for n s)
                    (filter (fun '(_, s) => uses_step_operator s operator_name) steps))
    by (unfold get_docker_builds; now rewrite get_docker_builds_loop_spec).
  split; [exact E|]. rewrite E. split; [|apply length_map].
  rewrite map_map.
  replace (map (fun x => build_step_name (let '(n, s) := x in build_for n s))
             (filter (fun '(_, s) => uses_step_operator s operator_name) steps))
    with (map fst (filter (fun '(_, s) => uses_step_operator s operator_name) steps))
    by (apply map_ext; now intros [n s]).
  clear E. induction steps as [|[n s] steps IH]; simpl in *; [constructor|].
  inversion Hnd as [|? ? Hn Hnd']; subst.
  destruct (uses_step_operator s operator_name); simpl; auto.
  constructor; auto.
  intros Hin. apply Hn. apply in_map_iff in Hin as ([n' s'] & Heq & Hin).
  simpl in Heq; subst. apply filter_In in Hin as [Hin _].
  now apply (in_map fst) in Hin.
Qed.

Lemma get_docker_builds_spec_witness :
  NoDup (map fst [("load", {| uses_step_operator := fun _ => false; docker_settings := 0%nat |});
                  ("train", {| uses_step_operator := fun n => String.eqb n "batch";
                               docker_settings := 1%nat |})])
  /\ map build_step_name
       (get_docker_builds "batch"
          [("load", {| uses_step_operator := fun _ => false; docker_settings := 0%nat |});
           ("train", {| uses_step_operator := fun n => String.eqb n "batch";
                        docker_settings := 1%nat |})]) = ["train"].
Proof.
  assert (H : NoDup (map fst
    [("load", {| uses_step_operator := fun _ => false; docker_settings := 0%nat |});
     ("train", {| uses_step_operator := fun n => String.eqb n "batch";
                  docker_settings := 1%nat |})])).
  { simpl. constructor; [simpl; intros [H|[]]; discriminate|].
    constructor; [simpl; tauto|constructor]. }
  split; [exact H|].
  rewrite (proj1 (get_docker_builds_spec "batch" _ H)). reflexivity.
Defined.

(* ------------------------------------------------------------------ *)
(** ** [get_context]: the AWS Batch job context *)

(** [str.lower] on ASCII characters. *)
Definition ascii_lower (c : ascii) : ascii :=
  let n := nat_of_ascii c in
  if (65 <=? n)%nat && (n <=? 90)%nat then ascii_of_nat (n + 32) else c.

Fixpoint str_lower (s : string) : string :=
  match s with
  | EmptyString => EmptyString
  | String c s' => String (ascii_lower c) (str_lower s')
  end.

(** The environment as pydantic-settings reads it when
    [case_sensitive=False] (its default):
    [{k.lower(): v for k, v in os.environ.items()}]. *)
Definition env_step (acc : str_dict) (kv : string * string) : str_dict :=
  dict_set (str_lower (fst kv)) (snd kv) acc.

Definition env_vars (environ : str_dict) : str_dict :=
  fold_left env_step environ [].

(** [AWSBatchContext] *)
Record AWSBatchContext : Type := {
  main_node_index : Z;
  main_node_address : string;
  node_index : Z;
  num_nodes : Z
}.

(** [get_context()], i.e. [AWSBatchContext()]: each field is read from the
    environment variable named by its alias, compared case-insensitively;
    a missing variable, or an [int] field whose text pydantic does not read
    as an integer ([parse_int]), raises [ValidationError]. *)
Definition get_context (parse_int : string -> option Z) (environ : str_dict)
  : result AWSBatchContext :=
  let vars := env_vars environ in
  match dict_get (str_lower "AWS_BATCH_JOB_MAIN_NODE_INDEX") vars,
        dict_get (str_lower "AWS_BATCH_JOB_MAIN_NODE_PRIVATE_IPV4_ADDRESS") vars,
        dict_get (str_lower "AWS_BATCH_JOB_NODE_INDEX") vars,
        dict_get (str_lower "AWS_BATCH_JOB_NUM_NODES") vars with
  | Some mi, Some addr, Some ni, Some nn =>
      match parse_int mi, parse_int ni, parse_int nn with
      | Some mi', Some ni', Some nn' =>
          Ok {| main_node_index := mi'; main_node_address := addr;
                node_index := ni'; num_nodes := nn' |}
      | _, _, _ => Raise (ValidationError "AWSBatchContext")
      end
  | _, _, _, _ => Raise (ValidationError "AWSBatchContext")
  end.

Lemma dict_get_set (k k' v : string) (d : str_dict) :
  dict_get k (dict_set k' v d)
  = if String.eqb k k' then Some v else dict_get k d.
Proof.
  induction d as [|[k2 v2] d IH]; simpl.
  - reflexivity.
  - destruct (String.eqb_spec k' k2) as [->|Hne]; simpl.
    + destruct (String.eqb k k2); reflexivity.
    + rewrite IH. destruct (String.eqb_spec k k') as [->|]; [|reflexivity].
      destruct (String.eqb_spec k' k2); [contradiction|reflexivity].
Qed.

Lemma env_fold_untouched (k : string) (others d : str_dict) :
  Forall (fun kv => str_lower (fst kv) <> k) others ->
  dict_get k (fold_left env_step others d)
  = dict_get k d.
Proof.
  intros H. revert d. induction H as [|[k0 v] others Hk _ IH]; intros d; simpl; auto.
  rewrite IH. unfold env_step. rewrite dict_get_set. simpl in *.
  destruct (String.eqb_spec k (str_lower k0)); [congruence|reflexivity].
Qed.

Lemma env_vars_app (e1 e2 : str_dict) :
  env_vars (e1 ++ e2)%list =
  fold_left env_step e2 (env_vars e1).
Proof. unfold env_vars. now rewrite fold_left_app. Qed.

(** The node-local part of the AWS Batch job environment: on the main node
    the variable [AWS_BATCH_JOB_MAIN_NODE_PRIVATE_IPV4_ADDRESS] is absent
    (as the field's own description says), and [get_context] then raises
    [ValidationError], whatever else the environment holds. *)
Theorem get_context_requires_main_node_address
    (parse_int : string -> option Z) (environ : str_dict) :
  Forall (fun kv => str_lower (fst kv)
                    <> str_lower "AWS_BATCH_JOB_MAIN_NODE_PRIVATE_IPV4_ADDRESS") environ ->
  get_context parse_int environ = Raise (ValidationError "AWSBatchContext").
Proof.
  intros H. unfold get_context, env_vars.
  rewrite (env_fold_untouched _ environ [] H). simpl.
  destruct (dict_get _ _); reflexivity.
Qed.

Lemma get_context_requires_main_node_address_witness :
  Forall (fun kv => str_lower (fst kv)
                    <> str_lower "AWS_BATCH_JOB_MAIN_NODE_PRIVATE_IPV4_ADDRESS")
    [("AWS_BATCH_JOB_MAIN_NODE_INDEX", "0"); ("AWS_BATCH_JOB_NODE_INDEX", "0");
     ("AWS_BATCH_JOB_NUM_NODES", "2")]
  /\ get_context decimal_value
       [("AWS_BATCH_JOB_MAIN_NODE_INDEX", "0"); ("AWS_BATCH_JOB_NODE_INDEX", "0");
        ("AWS_BATCH_JOB_NUM_NODES", "2")]
     = Raise (ValidationError "AWSBatchContext").
Proof.
  assert (H : Forall (fun kv => str_lower (fst kv)
                    <> str_lower "AWS_BATCH_JOB_MAIN_NODE_PRIVATE_IPV4_ADDRESS")
    [("AWS_BATCH_JOB_MAIN_NODE_INDEX", "0"); ("AWS_BATCH_JOB_NODE_INDEX", "0");
     ("AWS_BATCH_JOB_NUM_NODES", "2")]).
  { repeat constructor; vm_compute; discriminate. }
  split; [exact H|].
  apply get_context_requires_main_node_address. exact H.
Defined.

(** The values of the variables of [environ] whose name, lower-cased, is
    [k], in the order of [environ]. *)
Definition env_values (k : string) (environ : str_dict) : list string :=
  map snd (filter (fun kv => String.eqb (str_lower (fst kv)) k) environ).

(** The value of the last variable of [environ] whose lower-cased name is
    [k]. *)
Fixpoint env_last (k : string) (environ : str_dict) : option string :=
  match environ with
  | [] => None
  | (k0, v) :: rest =>
      match env_last k rest with
      | Some w => Some w
      | None => if String.eqb (str_lower k0) k then Some v else None
      end
  end.

Lemma env_fold_get (k : string) (environ d : str_dict) :
  dict_get k (fold_left env_step environ d)
  = match env_last k environ with Some v => Some v | None => dict_get k d end.
Proof.
  revert d. induction environ as [|[k0 v] rest IH]; intros d; simpl; auto.
  rewrite IH. unfold env_step. rewrite dict_get_set. simpl.
  destruct (env_last k rest); auto.
  destruct (String.eqb_spec k (str_lower k0)), (String.eqb_spec (str_lower k0) k);
    congruence.
Qed.

Lemma env_last_none (k : string) (environ : str_dict) :
  env_values k environ = [] -> env_last k environ = None.
Proof.
  unfold env_values. induction environ as [|[k0 v] rest IH]; simpl; auto.
  destruct (String.eqb (str_lower k0) k); simpl; [discriminate|].
  intros H. now rewrite IH.
Qed.

Lemma env_last_single (k v : string) (environ : str_dict) :
  env_values k environ = [v] -> env_last k environ = Some v.
Proof.
  unfold env_values. induction environ as [|[k0 v0] rest IH]; simpl; [discriminate|].
  destruct (String.eqb (str_lower k0) k) eqn:E; simpl.
  - intros H. injection H as -> Hr.
    now rewrite (env_last_none k rest Hr).
  - intros H. now rewrite IH.
Qed.

Lemma env_vars_single (k v : string) (environ : str_dict) :
  env_values k environ = [v] -> dict_get k (env_vars environ) = Some v.
Proof.
  intros H. unfold env_vars. rewrite env_fold_get.
  now rewrite (env_last_single k v environ H).
Qed.

(** On a node whose environment sets each of the four job variables once,
    under a name in any letter case and at any position among any other
    variables (integer values as [str(i)] writes them), [get_context]
    returns exactly those values; pydantic is only assumed to read [str(i)]
    back as [i]. *)
Theorem get_context_reads_job_environment (parse_int : string -> option Z)
    (environ : str_dict) (mi ni nn : Z) (addr : string) :
  (forall z, parse_int (py_str_int z) = Some z) ->
  env_values (str_lower "AWS_BATCH_JOB_MAIN_NODE_INDEX") environ = [py_str_int mi] ->
  env_values (str_lower "AWS_BATCH_JOB_MAIN_NODE_PRIVATE_IPV4_ADDRESS") environ
    = [addr] ->
  env_values (str_lower "AWS_BATCH_JOB_NODE_INDEX") environ = [py_str_int ni] ->
  env_values (str_lower "AWS_BATCH_JOB_NUM_NODES") environ = [py_str_int nn] ->
  get_context parse_int environ
  = Ok {| main_node_index := mi; main_node_address := addr;
          node_index := ni; num_nodes := nn |}.
Proof.
  intros Hp H1 H2 H3 H4. unfold get_context.
  rewrite (env_vars_single _ _ _ H1), (env_vars_single _ _ _ H2),
    (env_vars_single _ _ _ H3), (env_vars_single _ _ _ H4).
  now rewrite !Hp.
Qed.

Definition sample_environ : str_dict :=
  [("PATH", "/usr/bin");
   ("aws_batch_job_num_nodes", py_str_int 2);
   ("Aws_Batch_Job_Main_Node_Private_IPv4_Address", "10.0.0.1");
   ("HOME", "/root");
   ("AWS_BATCH_JOB_NODE_INDEX", py_str_int 1);
   ("aws_BATCH_job_MAIN_node_INDEX", py_str_int 0)].

Lemma get_context_reads_job_environment_witness :
  (forall z, decimal_value (py_str_int z) = Some z)
  /\ env_values (str_lower "AWS_BATCH_JOB_MAIN_NODE_INDEX") sample_environ
     = [py_str_int 0]
  /\ env_values (str_lower "AWS_BATCH_JOB_MAIN_NODE_PRIVATE_IPV4_ADDRESS")
       sample_environ = ["10.0.0.1"]
  /\ env_values (str_lower "AWS_BATCH_JOB_NODE_INDEX") sample_environ
     = [py_str_int 1]
  /\ env_values (str_lower "AWS_BATCH_JOB_NUM_NODES") sample_environ
     = [py_str_int 2]
  /\ get_context decimal_value sample_environ
     = Ok {| main_node_index := 0; main_node_address := "10.0.0.1";
             node_index := 1; num_nodes := 2 |}.
Proof.
  assert (Hp : forall z, decimal_value (py_str_int z) = Some z)
    by (intros z; apply py_str_int_spec).
  assert (H1 : env_values (str_lower "AWS_BATCH_JOB_MAIN_NODE_INDEX") sample_environ
               = [py_str_int 0]) by (vm_compute; reflexivity).
  assert (H2 : env_values (str_lower "AWS_BATCH_JOB_MAIN_NODE_PRIVATE_IPV4_ADDRESS")
                 sample_environ = ["10.0.0.1"]) by (vm_compute; reflexivity).
  assert (H3 : env_values (str_lower "AWS_BATCH_JOB_NODE_INDEX") sample_environ
               = [py_str_int 1]) by (vm_compute; reflexivity).
  assert (H4 : env_values (str_lower "AWS_BATCH_JOB_NUM_NODES") sample_environ
               = [py_str_int 2]) by (vm_compute; reflexivity).
  split; [exact Hp|]. split; [exact H1|]. split; [exact H2|].
  split; [exact H3|]. split; [exact H4|].
  apply get_context_reads_job_environment; assumption.
Defined.

(* ------------------------------------------------------------------ *)
(** ** [launch] as a whole *)

Lemma filter_no_external (t : list event) :
  Forall (fun ev => is_external_call ev = false) t -> filter is_external_call t = [].
Proof. induction 1 as [|ev t Hev _ IH]; simpl; auto. now rewrite Hev. Qed.

(** For every node count, every configuration and every answer the batch
    service could give, [launch] raises a pydantic [ValidationError] while
    compiling the job definition and never registers, submits or polls a
    job: its only external call is the step-name lookup. *)
Theorem launch_never_reaches_batch cfg st info cmd env rng batch :
  exists model,
    fst (launch cfg st info cmd env rng batch) = Raise (ValidationError model)
    /\ filter is_external_call (snd (launch cfg st info cmd env rng batch))
       = [EvGetRunStep (step_run_id info)].
Proof.
  pose proof (map_resource_settings_only_logs (resource_settings info)) as Hlogs.
  destruct (map_resource_settings_ok (resource_settings info)) as (l & t & E).
  rewrite E in Hlogs. simpl in Hlogs.
  assert (Hf : filter is_external_call t = []) by (now apply filter_no_external).
  unfold launch, generate_job_definition, get_run_step_name.
  unfold bind at 2 3. simpl. rewrite E.
  destruct (node_count st =? 1); unfold_M; rewrite ?app_nil_r.
  - eexists. split; [reflexivity|]. simpl. now rewrite Hf.
  - eexists. split; [reflexivity|]. simpl. now rewrite Hf.
Qed.

(* ------------------------------------------------------------------ *)
(** ** Error exits of the poll loop *)

(** An answer that reports one job whose status is a [str]. *)
Definition pending_answer (a : describe_response) : Prop :=
  match a with
  | DescribeReturns (j :: _) => exists s, jd_status j = PyStr s
  | _ => False
  end.

(** The trace of [k] polls that found the job still pending. *)
Definition pending_trace (job_id : string) (k : nat) : list event :=
  concat (repeat [EvDescribeJobs job_id; EvSleep 10] k).

Lemma poll_loop_pending_prefix (job_id : string) (pre rest : list describe_response) :
  Forall pending_answer pre ->
  poll_loop job_id (pre ++ rest)
  = let (r, t) := poll_loop job_id rest in
    (r, (pending_trace job_id (List.length pre) ++ t)%list).
Proof.
  induction 1 as [|a pre Ha _ IH]; simpl.
  - destruct (poll_loop job_id rest); reflexivity.
  - destruct a as [msg|[|j js]]; simpl in Ha; try contradiction.
    destruct Ha as [s Hs].
    unfold bind, emit. simpl. rewrite Hs. simpl. rewrite IH.
    destruct (poll_loop job_id rest) as [r t]. unfold pending_trace. simpl.
    rewrite <- ?app_assoc. reflexivity.
Qed.

(** A failing status query is logged with the job id and re-raised at
    once: after [k] pending polls (each followed by a 10-second sleep), a
    [ClientError] ends the loop with that error, and the service is not
    queried again.  An answer with an empty [jobs] list ends it with
    [IndexError], which the [except ClientError] clause does not catch. *)
Theorem poll_loop_error_exits (job_id msg : string)
    (pre rest : list describe_response) :
  Forall pending_answer pre ->
  poll_loop job_id (pre ++ DescribeRaises msg :: rest)
  = (Raise (ClientError msg),
     pending_trace job_id (List.length pre)
       ++ [EvDescribeJobs job_id; EvLog (LogDescribeFailed job_id msg)])%list
  /\ poll_loop job_id (pre ++ DescribeReturns [] :: rest)
     = (Raise IndexError,
        pending_trace job_id (List.length pre) ++ [EvDescribeJobs job_id])%list.
Proof.
  intros H. split; rewrite (poll_loop_pending_prefix job_id pre _ H); reflexivity.
Qed.

Lemma poll_loop_error_exits_witness :
  Forall pending_answer
    [DescribeReturns [{| jd_status := PyStr "RUNNABLE"; jd_statusReason := None |}]]
  /\ snd (poll_loop "job-1"
        ([DescribeReturns [{| jd_status := PyStr "RUNNABLE"; jd_statusReason := None |}]]
         ++ DescribeRaises "Throttling" :: [DescribeReturns []])%list)
     = [EvDescribeJobs "job-1"; EvSleep 10; EvDescribeJobs "job-1";
        EvLog (LogDescribeFailed "job-1" "Throttling")].
Proof.
  assert (H : Forall pending_answer
    [DescribeReturns [{| jd_status := PyStr "RUNNABLE"; jd_statusReason := None |}]]).
  { constructor; [eexists; reflexivity|constructor]. }
  split; [exact H|].
  rewrite (proj1 (poll_loop_error_exits "job-1" "Throttling"
            [DescribeReturns [{| jd_status := PyStr "RUNNABLE"; jd_statusReason := None |}]]
            [DescribeReturns []] H)).
  reflexivity.
Defined.

(* ------------------------------------------------------------------ *)
(** ** The [AWSBatchJobDefinition] constructor *)

Definition type_arg_ok (t : option string) : bool :=
  match t with
  | None => true
  | Some s => String.eqb s "container" || String.eqb s "multinode"
  end.

(** The constructor, for [containerProperties] absent, a model instance or
    a tuple of instances (the forms this code passes; other values are not
    modelled).  An invalid [type], or a tuple for [containerProperties],
    makes it raise a [ValidationError] of [AWSBatchJobDefinition]; with a
    valid [type] and no tuple it succeeds.  It has no effects.  A definition
    it builds keeps the given name, timeout, node properties and container
    properties, is multi-node exactly when ['multinode'] was passed, uses
    the default retry strategy when none was passed, and has the defaults
    [EC2], no tag propagation, priority 0 and no parameters or tags. *)
Theorem AWSBatchJobDefinition_new_spec (n : string) (t : list (string * Z))
    (kw : jd_kwargs) :
  (type_arg_ok (kw_type kw) = false ->
   fst (AWSBatchJobDefinition_new n t kw) = Raise (ValidationError "AWSBatchJobDefinition"))
  /\ (forall cs, kw_containerProperties kw = Some (ArgTuple cs) ->
      fst (AWSBatchJobDefinition_new n t kw)
      = Raise (ValidationError "AWSBatchJobDefinition"))
  /\ (type_arg_ok (kw_type kw) = true ->
      (forall cs, kw_containerProperties kw <> Some (ArgTuple cs)) ->
      exists d, fst (AWSBatchJobDefinition_new n t kw) = Ok d)
  /\ snd (AWSBatchJobDefinition_new n t kw) = []
  /\ all_ok (fun d =>
       jobDefinitionName d = n /\ timeout d = t
       /\ nodeProperties d = kw_nodeProperties kw
       /\ containerProperties d
          = match kw_containerProperties kw with
            | Some (ArgModel c) => Some c
            | _ => None
            end
       /\ (type_ d = TMultinode <-> kw_type kw = Some "multinode")
       /\ (kw_retryStrategy kw = None -> retryStrategy d = default_retry_strategy)
       /\ platformCapabilities d = EC2 /\ propagateTags d = false
       /\ schedulingPriority d = 0 /\ parameters d = [] /\ tags d = [])
     (AWSBatchJobDefinition_new n t kw).
Proof.
  destruct kw as [ty cp np rs].
  unfold AWSBatchJobDefinition_new, validate_job_type, validate_container,
    all_ok, type_arg_ok; simpl.
  assert (Hty : forall s, (String.eqb s "container" = true /\ s <> "multinode")
                \/ (String.eqb s "container" = false
                    /\ String.eqb s "multinode" = true /\ s = "multinode")
                \/ (String.eqb s "container" = false
                    /\ String.eqb s "multinode" = false /\ s <> "multinode")).
  { intros s. destruct (String.eqb_spec s "container") as [->|Hc].
    - left. split; [reflexivity|discriminate].
    - destruct (String.eqb_spec s "multinode") as [->|Hm].
      + right; left; auto.
      + right; right; auto. }
  destruct ty as [s|];
    [destruct (Hty s) as [[H1 Hn]|[[H1 [H2 He]]|[H1 [H2 Hn]]]];
     [rewrite H1|rewrite H1, H2; subst s|rewrite H1, H2]|];
    destruct cp as [[c|cs]|]; destruct rs as [r|]; unfold_M; simpl;
    repeat split; try reflexivity; try discriminate; try congruence;
    try (intros [d Hd]; discriminate);
    try (intros _; eexists; reflexivity);
    try (intros [Ha Hb]; discriminate);
    try (intros H; injection H; congruence);
    try (intros H; discriminate);
    try (match goal with H : exists _, _ |- _ =>
           destruct H as [? ?]; discriminate end);
    try (match goal with |- _ -> (forall cs', Some (ArgTuple ?cs) <> _) -> _ =>
           intros _ Hnt; destruct (Hnt cs eq_refl) end).
Qed.
